(** * CSV mesh importer: the decode-and-build pipeline of
      [CSVMeshImporterOperator.execute] (src/csv_mesh_importer.py)

    The operator reads a CSV file of homogeneous vertex positions, divides
    x, y, z by w, inserts one mesh vertex per row, groups consecutive
    vertices into triangles, hands the mesh to the host for cleanup, writes
    a text listing and reports the outcome.

    Python floats are IEEE binary64 numbers, as are Rocq's primitive floats;
    Python integers are [Z]; exceptions are values carried by a sum type;
    the calls into the host (bpy) are recorded as a trace of events. *)

From Stdlib Require Import List String Ascii ZArith Lia ZifyNat Bool Arith.
From Stdlib Require Import DecimalString Floats.
From Stdlib Require Uint63.
Import ListNotations.

Set Warnings "-inexact-float".
Local Open Scope string_scope.
Local Open Scope list_scope.
Local Open Scope Z_scope.

(** ** Python values and exceptions *)

(** A decoded vertex: the tuple [(x, y, z)] appended at line 72. *)
Definition point : Type := (float * float * float)%type.

(** One row as yielded by [csv.reader]: its list of fields. *)
Definition row : Type := list string.

Inductive exc_class : Type :=
| StopIteration
| IndexError
| ValueError
| ZeroDivisionError
| KeyError
| OSError
| RuntimeError.

(** An exception object: its class and [str(e)]. *)
Record exception : Type := Exc { exc_type : exc_class; exc_text : string }.

Definition str (e : exception) : string := exc_text e.

(** Computations that may raise. *)
Definition result (A : Type) : Type := (exception + A)%type.

Definition ok {A : Type} (a : A) : result A := inr a.
Definition throw {A : Type} (e : exception) : result A := inl e.

Definition rbind {A B : Type} (m : result A) (k : A -> result B) : result B :=
  match m with
  | inl e => inl e
  | inr a => k a
  end.

Declare Scope result_scope.
Delimit Scope result_scope with result.
Notation "x <- m ;; k" := (rbind m (fun x => k))
  (at level 61, m at next level, right associativity) : result_scope.

(** [next(reader)]: drops the first row; [StopIteration] (which carries no
    argument, so its text is empty) on an exhausted reader. *)
Definition next (reader : list row) : result (row * list row) :=
  match reader with
  | [] => throw (Exc StopIteration EmptyString)
  | r :: rest => ok (r, rest)
  end.

(** [row[i]] on a Python list, for a non-negative literal index. *)
Definition getitem (r : row) (i : nat) : result string :=
  match nth_error r i with
  | Some s => ok s
  | None => throw (Exc IndexError "list index out of range")
  end.

(** [d[key]] on a dict with string keys, kept as its list of items. *)
Definition dict_getitem (d : list (string * nat)) (key : string) : result nat :=
  match find (fun kv => String.eqb (fst kv) key) d with
  | Some kv => ok (snd kv)
  | None =>
      throw (Exc KeyError (String.append "'" (String.append key "'")))
  end.

(** [a / b] on floats: Python raises on a zero divisor of either sign and
    otherwise divides as IEEE 754 does. *)
Definition truediv (a b : float) : result float :=
  if PrimFloat.eqb b 0%float
  then throw (Exc ZeroDivisionError "float division by zero")
  else ok (a / b)%float.

(** [range(start, stop, step)] for a positive step, with CPython's length. *)
Definition range (start stop step : Z) : list Z :=
  let n := if stop <=? start then 0 else (stop - start + step - 1) / step in
  map (fun k : nat => start + Z.of_nat k * step) (seq 0 (Z.to_nat n)).

(** [len(l)] *)
Definition len {A : Type} (l : list A) : Z := Z.of_nat (List.length l).

(** ** The mesh under construction (bmesh) *)

(** A face is recorded by the positions, in the vertex lookup table, of
    the three vertices handed to [bm.faces.new]. *)
Definition face : Type := (nat * nat * nat)%type.

Record bmesh : Type := BMesh { verts : list point; faces : list face }.

(** [bmesh.new()] *)
Definition bmesh_new : bmesh := BMesh [] [].

(** [bm.verts.new(co)]: a new vertex at the end of the table. *)
Definition verts_new (bm : bmesh) (co : point) : bmesh :=
  BMesh (verts bm ++ [co]) (faces bm).

(** [bm.faces.new((a, b, c))] *)
Definition faces_new (bm : bmesh) (f : face) : bmesh :=
  BMesh (verts bm) (faces bm ++ [f]).

(** The decimal text of an integer ([%d]). *)
Definition decimal (n : Z) : string :=
  NilZero.string_of_int (Z.to_int n).

(** [bm.verts[i]]: the vertex at position [i] of the lookup table, named
    by that position; a negative index counts from the end, and an index
    outside the table raises [IndexError]. *)
Definition verts_getitem (bm : bmesh) (i : Z) : result nat :=
  let k := if i <? 0 then i + len (verts bm) else i in
  if (0 <=? k) && (k <? len (verts bm))
  then ok (Z.to_nat k)
  else throw (Exc IndexError
                (String.append "BMElemSeq[index]: index "
                   (String.append (decimal k) " out of range"))).

(** ** The host *)

Inductive report_level : Type := INFO | ERROR.

Inductive status : Type := FINISHED | CANCELLED.

(** A text written to the listing: either a literal, or the template
    ["({}, {}, {})\n"] filled with the three coordinates of a vertex. *)
Inductive text_piece : Type :=
| Literal (s : string)
| VertexLine (x y z : float).

(** What the operator does to the host, in order. *)
Inductive event : Type :=
| MeshNew (name : string)            (* bpy.data.meshes.new *)
| ToMesh (bm : bmesh)                (* bm.to_mesh(mesh); bm.free() *)
| ObjectNew                          (* bpy.data.objects.new *)
| ObjectLink                         (* context.collection.objects.link *)
| MeshOps (final : bmesh)            (* the bpy.ops calls of lines 94-122 *)
| MaterialAppend                     (* materials.new; mesh.materials.append *)
| TextNew                            (* bpy.ops.text.new *)
| TextWrite (t : text_piece)         (* text.write *)
| Report (level : report_level) (msg : string).   (* self.report *)

(** Host-calling computations: the events so far, and a value or the
    exception that stopped them. *)
Definition M (A : Type) : Type := (list event * result A)%type.

Definition emit (ev : event) : M unit := ([ev], inr tt).
Definition emits (evs : list event) : M unit := (evs, inr tt).
Definition lift {A : Type} (m : result A) : M A := ([], m).

Definition bind {A B : Type} (m : M A) (k : A -> M B) : M B :=
  match m with
  | (tr, inl e) => (tr, inl e)
  | (tr, inr a) => let '(tr', r) := k a in (tr ++ tr', r)
  end.

Declare Scope host_scope.
Delimit Scope host_scope with host.
Notation "x <- m ;; k" := (bind m (fun x => k))
  (at level 61, m at next level, right associativity) : host_scope.
Notation "m ;; k" := (bind m (fun _ => k))
  (at level 61, right associativity) : host_scope.

Definition nl : string := String "010" EmptyString.

(** The header line of the listing, ["Vertices:\n"]. *)
Definition listing_header : string := String.append "Vertices:" nl.

(** ** The operator *)

(** Lines 56-61: the column of each named field. *)
Definition headers : list (string * nat) :=
  [("SV_Position.x", 2%nat); ("SV_Position.y", 3%nat);
   ("SV_Position.z", 4%nat); ("SV_Position.w", 5%nat)].

Section Importer.

(** The builtin [float] applied to a field: the number, or the text of
    the [ValueError] it raises. *)
Variable pyfloat : string -> string + float.

(** The mesh operators the host runs on the object (origin, merge by
    distance, loose-edge removal, normals, lines 94-122): they may raise,
    and otherwise leave the final mesh. *)
Variable mesh_ops : bmesh -> result bmesh.

Definition float_of (s : string) : result float :=
  match pyfloat s with
  | inl msg => throw (Exc ValueError msg)
  | inr x => ok x
  end.

(** [float(row[headers[key]])] *)
Definition float_at (r : row) (key : string) : result float :=
  (i <- dict_getitem headers key ;; s <- getitem r i ;; float_of s)%result.

(** [float(row[headers[key]]) / float(row[headers['SV_Position.w']])],
    operands evaluated left to right. *)
Definition divided (r : row) (key : string) : result float :=
  (a <- float_at r key ;;
   w <- float_at r "SV_Position.w" ;;
   truediv a w)%result.

(** Lines 68-72: the body of the row loop. *)
Definition decode_row (r : row) : result point :=
  (x <- divided r "SV_Position.x" ;;
   y <- divided r "SV_Position.y" ;;
   z <- divided r "SV_Position.z" ;;
   ok (x, y, z))%result.

(** Lines 67-72: [for row in reader: ... vertices.append((x, y, z))]. *)
Fixpoint decode_rows (reader : list row) (vertices : list point)
  : result (list point) :=
  match reader with
  | [] => ok vertices
  | r :: rest =>
      (p <- decode_row r ;; decode_rows rest (vertices ++ [p]))%result
  end.

(** Lines 77-78: [for vertex in vertices: bm.verts.new(vertex)]. *)
Definition insert_verts (bm : bmesh) (vertices : list point) : bmesh :=
  fold_left verts_new vertices bm.

(** Lines 82-84: the loop over [corner_indices]. *)
Fixpoint connect (n : Z) (corner_indices : list Z) (bm : bmesh)
  : result bmesh :=
  match corner_indices with
  | [] => ok bm
  | i :: rest =>
      if i + 1 <? n then
        (a <- verts_getitem bm i ;;
         b <- verts_getitem bm (i + 1) ;;
         c <- verts_getitem bm (i + 2) ;;
         connect n rest (faces_new bm (a, b, c)))%result
      else connect n rest bm
  end.

(** Lines 75-84: the mesh built from the decoded vertices
    ([ensure_lookup_table] only makes [bm.verts[i]] available). *)
Definition build (vertices : list point) : result bmesh :=
  let bm := insert_verts bmesh_new vertices in
  let corner_indices := range 0 (len vertices - 1) 3 in
  connect (len vertices) corner_indices bm.

(** Lines 63-72: header skip and row loop. *)
Definition decode (reader : list row) : result (list point) :=
  (hr <- next reader ;; decode_rows (snd hr) [])%result.

(** Lines 136-138: the writes of the listing, the header and then one
    line per element of [vertices]. *)
Definition write_listing (vertices : list point) : list event :=
  TextWrite (Literal listing_header)
    :: map (fun v : point =>
              let '(x, y, z) := v in TextWrite (VertexLine x y z)) vertices.

(** Lines 53-138: the body of the [try]. [csvfile] is what opening the
    file and reading it through [csv.reader] gives: the rows, or the
    exception raised by [open]. *)
Definition try_body (csvfile : result (list row)) : M unit :=
  (reader <- lift csvfile ;;
   vertices <- lift (decode reader) ;;
   emit (MeshNew "CSV_Mesh") ;;
   bm <- lift (build vertices) ;;
   emit (ToMesh bm) ;;
   emit ObjectNew ;;
   emit ObjectLink ;;
   final <- lift (mesh_ops bm) ;;
   emit (MeshOps final) ;;
   emit MaterialAppend ;;
   emit TextNew ;;
   emits (write_listing vertices))%host.

(** Lines 51-145. *)
Definition execute (csvfile : result (list row)) : list event * status :=
  match try_body csvfile with
  | (tr, inl e) => (tr ++ [Report ERROR (str e)], CANCELLED)
  | (tr, inr _) =>
      (tr ++ [Report INFO "Mesh imported successfully."], FINISHED)
  end.

End Importer.

(** ** What the claims observe *)

(** The reports of a trace, in order. *)
Fixpoint reports (tr : list event) : list (report_level * string) :=
  match tr with
  | [] => []
  | Report l m :: tr' => (l, m) :: reports tr'
  | _ :: tr' => reports tr'
  end.

(** The pieces written to the text listing, in order. *)
Fixpoint listing (tr : list event) : list text_piece :=
  match tr with
  | [] => []
  | TextWrite t :: tr' => t :: listing tr'
  | _ :: tr' => listing tr'
  end.

(** Whether a mesh datablock was created. *)
Definition mesh_built (tr : list event) : bool :=
  existsb (fun ev => match ev with MeshNew _ => true | _ => false end) tr.

(** Whether a scene object was created or linked. *)
Definition object_created (tr : list event) : bool :=
  existsb (fun ev => match ev with
                     | ObjectNew | ObjectLink => true
                     | _ => false
                     end) tr.

(** The mesh the host's operators left, if they ran. *)
Fixpoint final_mesh (tr : list event) : option bmesh :=
  match tr with
  | [] => None
  | MeshOps m :: _ => Some m
  | _ :: tr' => final_mesh tr'
  end.

Definition vertex_line (v : point) : text_piece :=
  let '(x, y, z) := v in VertexLine x y z.

(** The triangles [(0,1,2), (3,4,5), ...]: [k] of them. *)
Definition triangles (k : nat) : list face :=
  map (fun j : nat => (3 * j, 3 * j + 1, 3 * j + 2)%nat) (seq 0 k).

Section Rows.

Variable pyfloat : string -> string + float.

(** Field [i] of the row exists and [float] reads it as [x]. *)
Definition field_parses (r : row) (i : nat) (x : float) : Prop :=
  exists s, nth_error r i = Some s /\ pyfloat s = inr x.

Definition field (r : row) (i : nat) : option float :=
  match nth_error r i with
  | Some s => match pyfloat s with inr x => Some x | inl _ => None end
  | None => None
  end.

(** The four position fields [(x, y, z, w)] of a row, when it has them
    all and each reads as a float. *)
Definition position (r : row) : option (float * float * float * float) :=
  match field r 2, field r 3, field r 4, field r 5 with
  | Some x, Some y, Some z, Some w => Some (x, y, z, w)
  | _, _, _, _ => None
  end.

(** A row with fewer than six fields, or a position field that is not
    a float, or a zero w. *)
Definition malformed (r : row) : bool :=
  match position r with
  | Some (_, _, _, w) => PrimFloat.eqb w 0%float
  | None => true
  end.

(** The 1-based number of the first malformed data row. *)
Fixpoint first_malformed (rows : list row) : option nat :=
  match rows with
  | [] => None
  | r :: rest =>
      if malformed r then Some 1%nat
      else option_map S (first_malformed rest)
  end.

(** The decoder's failures name the offending row: [row_of] reads, from
    the exception that ends the decode, the number of the first malformed
    data row. *)
Definition error_names_row (row_of : exception -> nat) : Prop :=
  forall (header : row) (rows : list row) (k : nat),
    first_malformed rows = Some k ->
    exists e, decode pyfloat (header :: rows) = inl e /\ row_of e = k.

End Rows.

(** The exception classes a data row can raise. *)
Definition row_level (c : exc_class) : bool :=
  match c with
  | IndexError | ValueError | ZeroDivisionError => true
  | _ => false
  end.

(** The listing is the header line followed by one line per vertex of
    the mesh the host's operators left. *)
Definition lists_final_vertices (tr : list event) : Prop :=
  match final_mesh tr with
  | Some m => listing tr = Literal listing_header :: map vertex_line (verts m)
  | None => False
  end.

(** ** A reader of plain decimal literals

    An instance of the builtin [float] to run the operator on concrete
    files. It reads an optional minus sign, digits, and an optional
    fraction, as long as the digits form an integer below 10^15 and at
    most 22 of them follow the point: the integer and the power of ten are
    then exact floats, and their quotient, rounded once, is the float the
    builtin gives. Every other text is refused with the builtin's message,
    also those the builtin would read (longer literals, exponents, [inf],
    [nan], surrounding blanks). *)

Definition digit_of (c : ascii) : option Z :=
  let n := Z.of_nat (nat_of_ascii c) in
  if (48 <=? n) && (n <=? 57) then Some (n - 48) else None.

(** Reads digits into [acc]; [frac] counts the digits after the point once
    it has been seen. Returns the integer and the number of fraction
    digits. *)
Fixpoint read_digits (s : string) (acc : Z) (seen : bool) (frac : option nat)
  : option (Z * nat) :=
  match s with
  | EmptyString =>
      if seen then Some (acc, match frac with Some k => k | None => 0%nat end)
      else None
  | String c rest =>
      match digit_of c, frac with
      | Some d, None => read_digits rest (10 * acc + d) true None
      | Some d, Some k => read_digits rest (10 * acc + d) true (Some (S k))
      | None, None =>
          if Ascii.eqb c "." then read_digits rest acc seen (Some 0%nat)
          else None
      | None, Some _ => None
      end
  end.

Definition float_of_Z (n : Z) : float := PrimFloat.of_uint63 (Uint63.of_Z n).

Definition unsigned_literal (s : string) : option float :=
  match read_digits s 0 false None with
  | Some (m, k) =>
      if (m <? 10 ^ 15) && (Z.of_nat k <=? 22)
      then Some (float_of_Z m / float_of_Z (10 ^ Z.of_nat k))%float
      else None
  | None => None
  end.

Definition float_literal (s : string) : string + float :=
  let refused :=
    inl (String.append "could not convert string to float: '"
           (String.append s "'")) in
  match s with
  | String "-" rest =>
      match unsigned_literal rest with
      | Some x => inr (- x)%float
      | None => refused
      end
  | _ =>
      match unsigned_literal s with
      | Some x => inr x
      | None => refused
      end
  end.

(** ** The host's merge pass *)

(** Euclidean distance. *)
Definition distance (p q : point) : float :=
  let '(px, py, pz) := p in
  let '(qx, qy, qz) := q in
  PrimFloat.sqrt ((px - qx) * (px - qx) + (py - qy) * (py - qy)
                  + (pz - qz) * (pz - qz))%float.

Fixpoint index_where {A : Type} (f : A -> bool) (l : list A) : option nat :=
  match l with
  | [] => None
  | a :: l' => if f a then Some 0%nat else option_map S (index_where f l')
  end.

(** The surviving vertices and, for each old position, the position of
    its survivor. *)
Fixpoint coalesce (threshold : float) (vs kept : list point)
  (remap : list nat) : list point * list nat :=
  match vs with
  | [] => (kept, remap)
  | v :: rest =>
      match index_where (fun q => PrimFloat.leb (distance q v) threshold) kept with
      | Some j => coalesce threshold rest kept (remap ++ [j])
      | None =>
          coalesce threshold rest (kept ++ [v]) (remap ++ [List.length kept])
      end
  end.

Definition degenerate (f : face) : bool :=
  let '(a, b, c) := f in
  Nat.eqb a b || Nat.eqb b c || Nat.eqb a c.

(** Modelled from the spec: the host's merge by distance
    ([bpy.ops.mesh.remove_doubles]), which is Blender's and not part of
    the sources. Section 4.2: two vertices whose Euclidean distance is at
    most the threshold are coalesced into one, triangles are rewritten to
    the surviving vertex, and triangles left with fewer than three
    distinct vertices are removed. Vertices are taken in table order and
    the first one seen survives. Loose-edge removal and normal orientation
    leave the vertex table as it is, so they are not modelled. *)
Definition merge_by_distance (threshold : float) (bm : bmesh) : bmesh :=
  let '(kept, remap) := coalesce threshold (verts bm) [] [] in
  let rename (i : nat) := nth i remap i in
  let moved :=
    map (fun f : face => let '(a, b, c) := f in (rename a, rename b, rename c))
      (faces bm) in
  BMesh kept (filter (fun f => negb (degenerate f)) moved).

(** The host's operators with the reference threshold, never raising. *)
Definition merging_host (bm : bmesh) : result bmesh :=
  ok (merge_by_distance 0.001%float bm).

(** ** Sample files *)

(** A data row whose position fields are the given texts. *)
Definition data_row (x y z w : string) : row := ["0"; "0"; x; y; z; w].

Definition header_row : row :=
  ["VTX"; "IDX"; "SV_Position.x"; "SV_Position.y"; "SV_Position.z";
   "SV_Position.w"].

(** Five well-formed data rows. *)
Definition five_rows : list row :=
  [header_row;
   data_row "0" "0" "0" "1"; data_row "1" "0" "0" "1";
   data_row "0" "1" "0" "1"; data_row "0" "0" "1" "1";
   data_row "1" "1" "1" "1"].

(** Two well-formed data rows. *)
Definition two_rows : list row :=
  [header_row; data_row "0" "0" "0" "1"; data_row "1" "0" "0" "1"].

(** Two triangles, the second starting with copies of the first two
    vertices of the first. *)
Definition six_rows : list row :=
  [header_row;
   data_row "0" "0" "0" "1"; data_row "1" "0" "0" "1";
   data_row "0" "1" "0" "1"; data_row "0" "0" "0" "1";
   data_row "1" "0" "0" "1"; data_row "0" "1" "1" "1"].

(** A zero w in the first data row, and in the second. *)
Definition zero_w_first : list row :=
  [header_row; data_row "1" "2" "3" "0"].

Definition zero_w_second : list row :=
  [header_row; data_row "1" "2" "3" "1"; data_row "1" "2" "3" "0"].

(** ** Notions for the properties of the builder and the decoder *)

(** The three table positions a face refers to, in order. *)
Definition corners (f : face) : list nat :=
  let '(a, b, c) := f in [a; b; c].

(** Two rows with the same fields in columns 2, 3, 4 and 5. *)
Definition same_position_fields (r r' : row) : Prop :=
  nth_error r 2 = nth_error r' 2
  /\ nth_error r 3 = nth_error r' 3
  /\ nth_error r 4 = nth_error r' 4
  /\ nth_error r 5 = nth_error r' 5.

(** The six-row file with other texts in the header and in the columns
    the operator does not read. *)
Definition six_rows_annotated : list row :=
  [["a"];
   ["v0"; "i0"; "0"; "0"; "0"; "1"; "red"];
   ["v1"; "i1"; "1"; "0"; "0"; "1"];
   ["v2"; "i2"; "0"; "1"; "0"; "1"; "blue"; "7"];
   ["v3"; "i3"; "0"; "0"; "0"; "1"];
   ["v4"; "i4"; "1"; "0"; "0"; "1"];
   ["v5"; "i5"; "0"; "1"; "1"; "1"]].

(** The points of the six-row file, and the first four of them. *)
Definition six_points : list point :=
  [(0, 0, 0); (1, 0, 0); (0, 1, 0); (0, 0, 0); (1, 0, 0); (0, 1, 1)]%float.

Definition four_points : list point := firstn 4 six_points.

(** Eight well-formed data rows. *)
Definition eight_rows : list row :=
  six_rows ++ [data_row "2" "0" "0" "1"; data_row "0" "2" "0" "1"].

(** The reader of decimal literals, reading the text nan as well. *)
Definition float_literal_or_nan (s : string) : string + float :=
  if String.eqb s "nan" then inr nan else float_literal s.

(** * Properties *)

(** ** Floats *)

Lemma binary_round_aux_negb (prec emax : Z) (s : bool) (m e : Z) (l : location) :
  binary_round_aux prec emax (negb s) m e l
  = SFopp (binary_round_aux prec emax s m e l).
Proof.
  unfold binary_round_aux.
  destruct (shr_fexp prec emax m e l) as [mrs e'].
  destruct (shr_fexp prec emax _ e' loc_Exact) as [mrs' e''].
  destruct (shr_m mrs'); try reflexivity.
  destruct (Z.leb e'' _); reflexivity.
Qed.

(** Negating the divisor negates the quotient. *)
Lemma SFdiv_opp_r (prec emax : Z) (x y : spec_float) :
  SFdiv prec emax x (SFopp y) = SFopp (SFdiv prec emax x y).
Proof.
  destruct x as [sx|sx| |sx mx ex], y as [sy|sy| |sy my ey]; simpl;
    try reflexivity; try (destruct sx, sy; reflexivity).
  destruct (SFdiv_core_binary prec emax (Zpos mx) ex (Zpos my) ey)
    as [[mz ez] lz].
  rewrite <- binary_round_aux_negb. now destruct sx, sy.
Qed.

(** A float below zero is not zero, and its absolute value is its
    opposite. *)
Lemma ltb_zero_sign (w : float) :
  PrimFloat.ltb w 0 = true ->
  SFabs (Prim2SF w) = SFopp (Prim2SF w) /\ PrimFloat.eqb w 0 = false.
Proof.
  rewrite ltb_spec, eqb_spec. change (Prim2SF 0) with (S754_zero false).
  unfold SFltb, SFeqb.
  destruct (Prim2SF w) as [s|s| |s m e]; simpl; try discriminate;
    destruct s; simpl; try discriminate; auto.
Qed.

Lemma div_negative_divisor (x w : float) :
  PrimFloat.ltb w 0 = true -> (x / w = - (x / abs w))%float.
Proof.
  intros H. apply ltb_zero_sign in H as [H _].
  apply Prim2SF_inj. rewrite opp_spec, !div_spec, abs_spec, H.
  unfold SF64div. rewrite SFdiv_opp_r.
  destruct (SFdiv prec emax (Prim2SF x) (Prim2SF w)); simpl;
    now rewrite ?negb_involutive.
Qed.

(** ** Traces *)

Lemma reports_app (tr1 tr2 : list event) :
  reports (tr1 ++ tr2) = reports tr1 ++ reports tr2.
Proof.
  induction tr1 as [|ev tr1 IH]; simpl; [reflexivity|].
  destruct ev; simpl; rewrite ?IH; reflexivity.
Qed.

Lemma listing_app (tr1 tr2 : list event) :
  listing (tr1 ++ tr2) = listing tr1 ++ listing tr2.
Proof.
  induction tr1 as [|ev tr1 IH]; simpl; [reflexivity|].
  destruct ev; simpl; rewrite ?IH; reflexivity.
Qed.

Lemma listing_write_listing (pts : list point) :
  listing (write_listing pts) = Literal listing_header :: map vertex_line pts.
Proof.
  unfold write_listing. simpl. f_equal.
  induction pts as [|[[x y] z] pts IH]; simpl; [reflexivity|].
  now rewrite IH.
Qed.

Lemma reports_write_listing (pts : list point) :
  reports (write_listing pts) = [].
Proof.
  unfold write_listing. simpl.
  induction pts as [|[[x y] z] pts IH]; simpl; [reflexivity|exact IH].
Qed.

(** The listing of a finished import. *)
Lemma listing_finished_trace (bm final : bmesh) (vertices : list point) :
  listing
    (([MeshNew "CSV_Mesh"; ToMesh bm; ObjectNew; ObjectLink; MeshOps final;
       MaterialAppend; TextNew] ++ write_listing vertices)
       ++ [Report INFO "Mesh imported successfully."])
  = Literal listing_header :: map vertex_line vertices.
Proof.
  rewrite !listing_app, listing_write_listing. simpl.
  now rewrite app_nil_r.
Qed.

(** ** The decoder *)

Section Decoder.

Variable pyfloat : string -> string + float.

Lemma field_parses_field (r : row) (i : nat) (x : float) :
  field_parses pyfloat r i x <-> field pyfloat r i = Some x.
Proof.
  unfold field_parses, field. split.
  - intros (s & -> & ->). reflexivity.
  - destruct (nth_error r i) as [s|]; [|discriminate].
    destruct (pyfloat s) as [msg|y] eqn:E; [discriminate|].
    intros [= <-]. now exists s.
Qed.

(** [float(row[headers[key]])] gives the field of that column when there
    is one, and otherwise raises an [IndexError] or a [ValueError]. *)
Lemma float_at_cases (r : row) (key : string) (i : nat) :
  dict_getitem headers key = inr i ->
  match field pyfloat r i with
  | Some x => float_at pyfloat r key = inr x
  | None =>
      exists e, float_at pyfloat r key = inl e /\ row_level (exc_type e) = true
  end.
Proof.
  intros K. unfold float_at. rewrite K.
  unfold field, getitem, float_of, rbind, ok, throw.
  destruct (nth_error r i) as [s|]; [|eauto].
  destruct (pyfloat s) as [msg|x]; eauto.
Qed.

Lemma float_at_some (r : row) (key : string) (i : nat) (x : float) :
  dict_getitem headers key = inr i ->
  field pyfloat r i = Some x -> float_at pyfloat r key = inr x.
Proof.
  intros K H. pose proof (float_at_cases r key i K) as C. now rewrite H in C.
Qed.

Lemma float_at_none (r : row) (key : string) (i : nat) :
  dict_getitem headers key = inr i ->
  field pyfloat r i = None ->
  exists e, float_at pyfloat r key = inl e /\ row_level (exc_type e) = true.
Proof.
  intros K H. pose proof (float_at_cases r key i K) as C. now rewrite H in C.
Qed.

Lemma truediv_raises (a w : float) (e : exception) :
  truediv a w = inl e -> row_level (exc_type e) = true.
Proof.
  unfold truediv. destruct (PrimFloat.eqb w 0); [|discriminate].
  now intros [= <-].
Qed.

(** The column of w. *)
Lemma headers_w : dict_getitem headers "SV_Position.w" = inr 5%nat.
Proof. reflexivity. Qed.

(** An exception raised by a quotient is an [IndexError], a [ValueError]
    or a [ZeroDivisionError]. *)
Lemma divided_raises (r : row) (key : string) (i : nat) (e : exception) :
  dict_getitem headers key = inr i ->
  divided pyfloat r key = inl e -> row_level (exc_type e) = true.
Proof.
  intros K. unfold divided, rbind.
  destruct (field pyfloat r i) as [a|] eqn:Ei.
  - rewrite (float_at_some _ _ _ _ K Ei).
    destruct (field pyfloat r 5) as [w|] eqn:E5.
    + rewrite (float_at_some _ _ _ _ headers_w E5). apply truediv_raises.
    + destruct (float_at_none _ _ _ headers_w E5) as (e' & -> & He').
      now intros [= <-].
  - destruct (float_at_none _ _ _ K Ei) as (e' & -> & He'). now intros [= <-].
Qed.

Lemma decode_row_raises (r : row) (e : exception) :
  decode_row pyfloat r = inl e -> row_level (exc_type e) = true.
Proof.
  unfold decode_row, rbind.
  destruct (divided pyfloat r "SV_Position.x") eqn:E2;
    [intros [= <-]; exact (divided_raises r "SV_Position.x" 2%nat _ eq_refl E2)|].
  destruct (divided pyfloat r "SV_Position.y") eqn:E3;
    [intros [= <-]; exact (divided_raises r "SV_Position.y" 3%nat _ eq_refl E3)|].
  destruct (divided pyfloat r "SV_Position.z") eqn:E4;
    [intros [= <-]; exact (divided_raises r "SV_Position.z" 4%nat _ eq_refl E4)|].
  discriminate.
Qed.

Lemma divided_fields (r : row) (key : string) (i : nat) (a w : float) :
  dict_getitem headers key = inr i ->
  field pyfloat r i = Some a -> field pyfloat r 5 = Some w ->
  divided pyfloat r key = truediv a w.
Proof.
  intros K Ha Hw. unfold divided, rbind.
  now rewrite (float_at_some _ _ _ _ K Ha), (float_at_some _ _ _ _ headers_w Hw).
Qed.

(** A row with its four fields decodes to the three quotients, unless
    w is zero. *)
Lemma decode_row_position (r : row) (x y z w : float) :
  position pyfloat r = Some (x, y, z, w) ->
  decode_row pyfloat r =
  if PrimFloat.eqb w 0
  then inl (Exc ZeroDivisionError "float division by zero")
  else inr (x / w, y / w, z / w)%float.
Proof.
  unfold position.
  destruct (field pyfloat r 2) as [x'|] eqn:E2; [|discriminate].
  destruct (field pyfloat r 3) as [y'|] eqn:E3; [|discriminate].
  destruct (field pyfloat r 4) as [z'|] eqn:E4; [|discriminate].
  destruct (field pyfloat r 5) as [w'|] eqn:E5; [|discriminate].
  intros [= -> -> -> ->].
  unfold decode_row.
  rewrite (divided_fields _ "SV_Position.x" _ _ _ eq_refl E2 E5),
    (divided_fields _ "SV_Position.y" _ _ _ eq_refl E3 E5),
    (divided_fields _ "SV_Position.z" _ _ _ eq_refl E4 E5).
  unfold truediv. destruct (PrimFloat.eqb w 0); reflexivity.
Qed.

(** A row that lacks one of the four fields raises. *)
Lemma decode_row_no_position (r : row) :
  position pyfloat r = None -> exists e, decode_row pyfloat r = inl e.
Proof.
  unfold position, decode_row, divided, rbind. intros H.
  destruct (field pyfloat r 5) as [w|] eqn:E5.
  - rewrite (float_at_some _ _ _ _ headers_w E5).
    destruct (field pyfloat r 2) as [x|] eqn:E2;
      [rewrite (float_at_some _ "SV_Position.x" _ _ eq_refl E2)
      |destruct (float_at_none _ "SV_Position.x" _ eq_refl E2) as (e & -> & _);
       eauto].
    destruct (truediv x w) as [e|qx]; [eauto|].
    destruct (field pyfloat r 3) as [y|] eqn:E3;
      [rewrite (float_at_some _ "SV_Position.y" _ _ eq_refl E3)
      |destruct (float_at_none _ "SV_Position.y" _ eq_refl E3) as (e & -> & _);
       eauto].
    destruct (truediv y w) as [e|qy]; [eauto|].
    destruct (field pyfloat r 4) as [z|] eqn:E4;
      [discriminate
      |destruct (float_at_none _ "SV_Position.z" _ eq_refl E4) as (e & -> & _);
       eauto].
  - destruct (float_at_none _ _ _ headers_w E5) as (e5 & -> & _).
    destruct (float_at pyfloat r "SV_Position.x"); eauto.
Qed.

Lemma malformed_raises (r : row) :
  malformed pyfloat r = true ->
  exists e, decode_row pyfloat r = inl e /\ row_level (exc_type e) = true.
Proof.
  intros H.
  assert (exists e, decode_row pyfloat r = inl e) as [e He].
  { unfold malformed in H.
    destruct (position pyfloat r) as [[[[x y] z] w]|] eqn:P.
    - rewrite (decode_row_position _ _ _ _ _ P), H. eauto.
    - now apply decode_row_no_position. }
  exists e. split; [exact He|]. eapply decode_row_raises, He.
Qed.

Lemma well_formed_decodes (r : row) :
  malformed pyfloat r = false ->
  exists x y z w,
    position pyfloat r = Some (x, y, z, w)
    /\ decode_row pyfloat r = inr (x / w, y / w, z / w)%float.
Proof.
  unfold malformed.
  destruct (position pyfloat r) as [[[[x y] z] w]|] eqn:P; [|discriminate].
  intros H. exists x, y, z, w. split; [reflexivity|].
  now rewrite (decode_row_position _ _ _ _ _ P), H.
Qed.

(** The row loop stops at the first malformed row, with its exception:
    row [k] (counting from 1) is malformed, the rows before it are not,
    and the loop ends with what decoding row [k] raises. *)
Lemma decode_rows_first_malformed (rows : list row) :
  forall (vertices : list point) (k : nat),
    first_malformed pyfloat rows = Some k ->
    exists i r e,
      k = S i
      /\ nth_error rows i = Some r
      /\ decode_row pyfloat r = inl e
      /\ row_level (exc_type e) = true
      /\ decode_rows pyfloat rows vertices = inl e.
Proof.
  induction rows as [|r rest IH]; intros vertices k; simpl; [discriminate|].
  destruct (malformed pyfloat r) eqn:Hm.
  - intros [= <-]. destruct (malformed_raises _ Hm) as (e & He & Hc).
    exists 0%nat, r, e. rewrite He. simpl. auto.
  - destruct (first_malformed pyfloat rest) as [j|] eqn:Hj; [|discriminate].
    intros [= <-].
    destruct (well_formed_decodes _ Hm) as (x & y & z & w & _ & Hd).
    destruct (IH (vertices ++ [(x / w, y / w, z / w)%float]) j eq_refl)
      as (i & r' & e & -> & Hn & He & Hc & Hrun).
    exists (S i), r', e. rewrite Hd. unfold rbind. simpl. auto.
Qed.

(** Without a malformed row the loop appends one point per row. *)
Lemma decode_rows_well_formed (rows : list row) :
  forall vertices : list point,
    first_malformed pyfloat rows = None ->
    exists pts,
      decode_rows pyfloat rows vertices = inr (vertices ++ pts)
      /\ List.length pts = List.length rows.
Proof.
  induction rows as [|r rest IH]; intros vertices; simpl.
  - intros _. exists []. now rewrite app_nil_r.
  - destruct (malformed pyfloat r) eqn:Hm; [discriminate|].
    destruct (first_malformed pyfloat rest) as [j|] eqn:Hj; [discriminate|].
    intros _.
    destruct (well_formed_decodes _ Hm) as (x & y & z & w & _ & Hd).
    destruct (IH (vertices ++ [(x / w, y / w, z / w)%float]) eq_refl)
      as (pts & Hrun & Hlen).
    exists ((x / w, y / w, z / w)%float :: pts).
    rewrite Hd. unfold rbind. split; [|simpl; now rewrite Hlen].
    etransitivity; [apply Hrun|]. now rewrite <- app_assoc.
Qed.

(** The loop either raises what some row raises or returns the vertices
    it was given followed by new ones. *)
Lemma decode_rows_raises (rows : list row) :
  forall (vertices : list point) (e : exception),
    decode_rows pyfloat rows vertices = inl e ->
    row_level (exc_type e) = true.
Proof.
  induction rows as [|r rest IH]; intros vertices e; simpl; [discriminate|].
  unfold rbind. destruct (decode_row pyfloat r) as [e'|p] eqn:Hd.
  - intros [= <-]. eapply decode_row_raises, Hd.
  - apply IH.
Qed.

End Decoder.

(** ** The builder *)

Ltac div_lia := zify; Z.div_mod_to_equations; lia.
Ltac ltb_is_true := symmetry; apply Z.ltb_lt; div_lia.
Ltac ltb_is_false := symmetry; apply Z.ltb_ge; div_lia.

Lemma verts_insert_verts (vertices : list point) :
  forall bm, verts (insert_verts bm vertices) = verts bm ++ vertices.
Proof.
  unfold insert_verts.
  induction vertices as [|v rest IH]; intros bm; simpl.
  - now rewrite app_nil_r.
  - rewrite IH. simpl. now rewrite <- app_assoc.
Qed.

Lemma faces_insert_verts (vertices : list point) :
  forall bm, faces (insert_verts bm vertices) = faces bm.
Proof.
  unfold insert_verts.
  induction vertices as [|v rest IH]; intros bm; simpl; [reflexivity|].
  now rewrite IH.
Qed.

Lemma insert_verts_new (vertices : list point) :
  insert_verts bmesh_new vertices = BMesh vertices [].
Proof.
  pose proof (verts_insert_verts vertices bmesh_new) as V.
  pose proof (faces_insert_verts vertices bmesh_new) as F.
  destruct (insert_verts bmesh_new vertices) as [vs fs].
  simpl in *. now subst.
Qed.

(** A position inside the table is found. *)
Lemma verts_getitem_inside (bm : bmesh) (i : nat) :
  (i < List.length (verts bm))%nat ->
  verts_getitem bm (Z.of_nat i) = inr i.
Proof.
  intros H. unfold verts_getitem, len, ok.
  replace (Z.of_nat i <? 0) with false by ltb_is_false.
  replace ((0 <=? Z.of_nat i) && (Z.of_nat i <? Z.of_nat (List.length (verts bm))))
    with true
    by (symmetry; apply andb_true_iff; split;
        [apply Z.leb_le|apply Z.ltb_lt]; lia).
  now rewrite Nat2Z.id.
Qed.

(** The position just past the table raises. *)
Lemma verts_getitem_end (bm : bmesh) :
  verts_getitem bm (len (verts bm))
  = inl (Exc IndexError
           (String.append "BMElemSeq[index]: index "
              (String.append (decimal (len (verts bm))) " out of range"))).
Proof.
  unfold verts_getitem, len, throw.
  replace (Z.of_nat (List.length (verts bm)) <? 0) with false by ltb_is_false.
  replace ((0 <=? Z.of_nat (List.length (verts bm)))
           && (Z.of_nat (List.length (verts bm))
               <? Z.of_nat (List.length (verts bm))))
    with false
    by (symmetry; apply andb_false_iff; right; apply Z.ltb_ge; lia).
  reflexivity.
Qed.

(** The face loop never touches the vertex table. *)
Lemma connect_verts (n : Z) (corner_indices : list Z) :
  forall bm bm', connect n corner_indices bm = inr bm' -> verts bm' = verts bm.
Proof.
  induction corner_indices as [|i rest IH]; intros bm bm'; simpl.
  - now intros [= <-].
  - destruct (i + 1 <? n); [|apply IH].
    unfold rbind.
    destruct (verts_getitem bm i); [discriminate|].
    destruct (verts_getitem bm (i + 1)); [discriminate|].
    destruct (verts_getitem bm (i + 2)); [discriminate|].
    intros H. now apply IH in H.
Qed.

Lemma connect_app (n : Z) (l1 l2 : list Z) :
  forall bm,
    connect n (l1 ++ l2) bm
    = (bm' <- connect n l1 bm ;; connect n l2 bm')%result.
Proof.
  induction l1 as [|i l1 IH]; intros bm; simpl; [reflexivity|].
  destruct (i + 1 <? n); [|apply IH].
  unfold rbind at 1 2 3 5 6 7.
  destruct (verts_getitem bm i); [reflexivity|].
  destruct (verts_getitem bm (i + 1)); [reflexivity|].
  destruct (verts_getitem bm (i + 2)); [reflexivity|].
  apply IH.
Qed.

(** [corner_indices] is [0, 3, 6, ...], one entry for each multiple of 3
    below [len(vertices) - 1]. *)
Lemma range_corners (n : nat) :
  range 0 (Z.of_nat n - 1) 3
  = map (fun k : nat => 0 + Z.of_nat k * 3) (seq 0 ((n + 1) / 3)).
Proof.
  unfold range. f_equal. f_equal.
  destruct (Z.of_nat n - 1 <=? 0) eqn:E.
  - apply Z.leb_le in E. div_lia.
  - apply Z.leb_gt in E. div_lia.
Qed.

(** As long as whole triples remain, each corner index adds its face. *)
Lemma connect_triangles (vertices : list point) :
  forall (c a : nat) (fs : list face),
    (3 * (a + c) <= List.length vertices)%nat ->
    connect (len vertices)
      (map (fun k : nat => 0 + Z.of_nat k * 3) (seq a c)) (BMesh vertices fs)
    = inr (BMesh vertices
             (fs ++ map (fun j : nat => (3 * j, 3 * j + 1, 3 * j + 2)%nat)
                      (seq a c))).
Proof.
  induction c as [|c IH]; intros a fs H; cbn [seq map connect].
  - unfold ok. now rewrite app_nil_r.
  - unfold len. replace (0 + Z.of_nat a * 3 + 1 <? Z.of_nat (List.length vertices))
      with true by ltb_is_true.
    replace (0 + Z.of_nat a * 3) with (Z.of_nat (3 * a)) by lia.
    replace (Z.of_nat (3 * a) + 1) with (Z.of_nat (3 * a + 1)) by lia.
    replace (Z.of_nat (3 * a) + 2) with (Z.of_nat (3 * a + 2)) by lia.
    rewrite !verts_getitem_inside by (cbn [verts]; lia).
    unfold rbind, faces_new. cbn [verts faces].
    specialize (IH (S a) (fs ++ [(3 * a, 3 * a + 1, 3 * a + 2)%nat])).
    unfold len in IH. etransitivity; [apply IH; lia|].
    now rewrite <- app_assoc.
Qed.

(** What the builder does with [n] vertices: when [n mod 3] is 0 or 1 it
    makes the [n / 3] triangles over consecutive triples and leaves the
    vertex table as given; when [n mod 3] is 2 the lookup of the missing
    third corner [bm.verts[n]] raises. *)
Theorem build_cases (vertices : list point) :
  build vertices =
  if (List.length vertices mod 3 =? 2)%nat
  then inl (Exc IndexError
              (String.append "BMElemSeq[index]: index "
                 (String.append (decimal (len vertices)) " out of range")))
  else inr (BMesh vertices (triangles (List.length vertices / 3))).
Proof.
  unfold build. rewrite insert_verts_new.
  unfold len at 2. rewrite range_corners.
  set (n := List.length vertices).
  destruct (n mod 3 =? 2)%nat eqn:E.
  - apply Nat.eqb_eq in E.
    replace ((n + 1) / 3)%nat with (n / 3 + 1)%nat by (subst n; div_lia).
    rewrite seq_app, map_app, connect_app.
    rewrite connect_triangles by (subst n; div_lia).
    unfold rbind at 1. cbn [seq map connect app].
    change (0 + n / 3)%nat with (n / 3)%nat.
    unfold len at 1. fold n.
    replace (0 + Z.of_nat (n / 3) * 3 + 1 <? Z.of_nat n) with true
      by ltb_is_true.
    replace (0 + Z.of_nat (n / 3) * 3) with (Z.of_nat (3 * (n / 3))) by lia.
    replace (Z.of_nat (3 * (n / 3)) + 1) with (Z.of_nat (3 * (n / 3) + 1)) by lia.
    rewrite !verts_getitem_inside by (cbn [verts]; fold n; div_lia).
    replace (Z.of_nat (3 * (n / 3)) + 2) with (len (verts (BMesh vertices (triangles (n / 3)))))
      by (cbn [verts]; unfold len; fold n; div_lia).
    unfold rbind. rewrite verts_getitem_end. reflexivity.
  - apply Nat.eqb_neq in E.
    replace ((n + 1) / 3)%nat with (n / 3)%nat by (subst n; div_lia).
    rewrite connect_triangles by (subst n; div_lia).
    reflexivity.
Qed.

(** ** The operator *)

Section Operator.

Variable pyfloat : string -> string + float.
Variable mesh_ops : bmesh -> result bmesh.

(** The five ways through the body of the [try]. *)
Lemma try_body_cases (csvfile : result (list row)) :
  try_body pyfloat mesh_ops csvfile =
  match csvfile with
  | inl e => ([], inl e)
  | inr reader =>
      match decode pyfloat reader with
      | inl e => ([], inl e)
      | inr vertices =>
          match build vertices with
          | inl e => ([MeshNew "CSV_Mesh"], inl e)
          | inr bm =>
              match mesh_ops bm with
              | inl e =>
                  ([MeshNew "CSV_Mesh"; ToMesh bm; ObjectNew; ObjectLink],
                   inl e)
              | inr final =>
                  ([MeshNew "CSV_Mesh"; ToMesh bm; ObjectNew; ObjectLink;
                    MeshOps final; MaterialAppend; TextNew]
                     ++ write_listing vertices, inr tt)
              end
          end
      end
  end.
Proof.
  unfold try_body, bind, lift, emit, emits.
  destruct csvfile as [e|reader]; [reflexivity|].
  destruct (decode pyfloat reader) as [e|vertices]; [reflexivity|].
  destruct (build vertices) as [e|bm]; [reflexivity|].
  destruct (mesh_ops bm) as [e|final]; reflexivity.
Qed.

(** The body of the [try] reports nothing itself. *)
Lemma try_body_reports (csvfile : result (list row)) :
  reports (fst (try_body pyfloat mesh_ops csvfile)) = [].
Proof.
  rewrite try_body_cases.
  destruct csvfile as [e|reader]; [reflexivity|].
  destruct (decode pyfloat reader) as [e|vertices]; [reflexivity|].
  destruct (build vertices) as [e|bm]; [reflexivity|].
  destruct (mesh_ops bm) as [e|final]; [reflexivity|].
  cbn [fst]. rewrite reports_app, reports_write_listing. reflexivity.
Qed.

(** A decode that raises ends the import with the one report. *)
Lemma execute_decode_raises (reader : list row) (e : exception) :
  decode pyfloat reader = inl e ->
  execute pyfloat mesh_ops (inr reader) = ([Report ERROR (str e)], CANCELLED).
Proof.
  intros H. unfold execute. rewrite try_body_cases, H. reflexivity.
Qed.

End Operator.

(** ** Well-formed files *)

(** A file of [N] well-formed data rows decodes to [N] points; the mesh
    then has them as its vertices and the [N / 3] triangles over
    consecutive triples when [N mod 3] is 0 or 1, and the build raises
    when [N mod 3] is 2. *)
Lemma well_formed_file_cases
  (pyfloat : string -> string + float) (header : row) (rows : list row) :
  first_malformed pyfloat rows = None ->
  exists vertices,
    List.length vertices = List.length rows
    /\ decode pyfloat (header :: rows) = inr vertices
    /\ build vertices =
       if (List.length rows mod 3 =? 2)%nat
       then inl (Exc IndexError
                   (String.append "BMElemSeq[index]: index "
                      (String.append (decimal (len rows)) " out of range")))
       else inr (BMesh vertices (triangles (List.length rows / 3))).
Proof.
  intros H.
  destruct (decode_rows_well_formed pyfloat rows [] H) as (pts & Hrun & Hlen).
  exists pts. split; [exact Hlen|]. split; [exact Hrun|].
  rewrite build_cases. unfold len. now rewrite Hlen.
Qed.

(** * The claims *)

(** C1. The builder makes [floor(N/3)] triangles over [N] vertices only
    when [N mod 3] is 0 or 1 ([build_cases]). With five well-formed data
    rows the corner index 3 passes the guard [i + 1 < len(vertices)], the
    lookup [bm.verts[5]] raises, and the import is cancelled after the
    mesh datablock was created: no mesh with 5 vertices and 1 triangle
    results. *)
Theorem five_rows_import_cancelled :
  execute float_literal merging_host (ok five_rows)
  = ([MeshNew "CSV_Mesh";
      Report ERROR "BMElemSeq[index]: index 5 out of range"], CANCELLED).
Proof. vm_compute. reflexivity. Qed.

(** C2. Two trailing points are not dropped: with two well-formed data
    rows the corner index 0 passes the guard, [bm.verts[2]] raises, and
    the import is cancelled instead of succeeding with zero triangles. *)
Theorem two_rows_import_cancelled :
  execute float_literal merging_host (ok two_rows)
  = ([MeshNew "CSV_Mesh";
      Report ERROR "BMElemSeq[index]: index 2 out of range"], CANCELLED).
Proof. vm_compute. reflexivity. Qed.

(** C3. A data row whose fields 2, 3, 4, 5 read as the floats x, y, z, w
    with w nonzero decodes to exactly the point (x/w, y/w, z/w), the
    quotients being IEEE divisions and nothing else; in particular
    x=2, y=4, z=6, w=2 gives (1.0, 2.0, 3.0). *)
Theorem decode_row_perspective_divide
  (pyfloat : string -> string + float) (r : row) (x y z w : float) :
  field_parses pyfloat r 2 x ->
  field_parses pyfloat r 3 y ->
  field_parses pyfloat r 4 z ->
  field_parses pyfloat r 5 w ->
  PrimFloat.eqb w 0 = false ->
  decode_row pyfloat r = inr (x / w, y / w, z / w)%float
  /\ ((x, y, z, w) = (2, 4, 6, 2)%float ->
      decode_row pyfloat r = inr (1, 2, 3)%float).
Proof.
  intros Hx Hy Hz Hw Hnz.
  apply field_parses_field in Hx, Hy, Hz, Hw.
  assert (position pyfloat r = Some (x, y, z, w)) as P
      by (unfold position; now rewrite Hx, Hy, Hz, Hw).
  assert (decode_row pyfloat r = inr (x / w, y / w, z / w)%float) as D
      by (now rewrite (decode_row_position _ _ _ _ _ _ P), Hnz).
  split; [exact D|].
  intros [= -> -> -> ->]. exact D.
Qed.

(** C4, as the code has it. When some data row is malformed (fewer than 6
    fields, a position field that is not a float, or a zero w), the import
    is cancelled by the exception that decoding the first such row raises,
    an [IndexError], [ValueError] or [ZeroDivisionError]; the only event is
    the ERROR report with that exception's text, so no mesh is built and no
    scene object is created. The exception is what the row's fields alone
    give: it does not depend on where the row stands. *)
Theorem malformed_row_cancels_import
  (pyfloat : string -> string + float) (mesh_ops : bmesh -> result bmesh)
  (header : row) (rows : list row) (k : nat) :
  first_malformed pyfloat rows = Some k ->
  exists i r e,
    k = S i
    /\ nth_error rows i = Some r
    /\ decode_row pyfloat r = inl e
    /\ row_level (exc_type e) = true
    /\ execute pyfloat mesh_ops (ok (header :: rows))
       = ([Report ERROR (str e)], CANCELLED)
    /\ mesh_built (fst (execute pyfloat mesh_ops (ok (header :: rows)))) = false
    /\ object_created (fst (execute pyfloat mesh_ops (ok (header :: rows))))
       = false.
Proof.
  intros H.
  destruct (decode_rows_first_malformed pyfloat rows [] k H)
    as (i & r & e & -> & Hn & He & Hc & Hrun).
  assert (execute pyfloat mesh_ops (ok (header :: rows))
          = ([Report ERROR (str e)], CANCELLED)) as X
      by (apply execute_decode_raises; exact Hrun).
  exists i, r, e. rewrite X. repeat split; assumption || reflexivity.
Qed.

(** C5. On a stream with no rows the header skip [next(reader)] itself
    raises, and what it raises, [StopIteration], is a kind of error that
    no data row raises: once a header was read, a failing decode never
    ends with it. *)
Theorem empty_stream_fails_at_header_skip
  (pyfloat : string -> string + float) (mesh_ops : bmesh -> result bmesh) :
  next [] = inl (Exc StopIteration EmptyString)
  /\ decode pyfloat [] = inl (Exc StopIteration EmptyString)
  /\ execute pyfloat mesh_ops (ok [])
     = ([Report ERROR EmptyString], CANCELLED)
  /\ row_level StopIteration = false
  /\ forall (header : row) (rows : list row),
       match decode pyfloat (header :: rows) with
       | inl e => row_level (exc_type e) = true
       | inr _ => True
       end.
Proof.
  repeat split.
  intros header rows. unfold decode. simpl.
  destruct (decode_rows pyfloat rows []) as [e|pts] eqn:E; [|exact I].
  eapply decode_rows_raises, E.
Qed.

(** C6. Every invocation reports exactly once, as its last act: when the
    body of the [try] raised [e], one ERROR report whose message is
    [str(e)], with result CANCELLED; otherwise one INFO report
    "Mesh imported successfully.", with result FINISHED. *)
Theorem execute_reports_exactly_once
  (pyfloat : string -> string + float) (mesh_ops : bmesh -> result bmesh)
  (csvfile : result (list row)) :
  let body := try_body pyfloat mesh_ops csvfile in
  let out := execute pyfloat mesh_ops csvfile in
  match snd body with
  | inl e =>
      fst out = fst body ++ [Report ERROR (str e)]
      /\ reports (fst out) = [(ERROR, str e)]
      /\ snd out = CANCELLED
  | inr _ =>
      fst out = fst body ++ [Report INFO "Mesh imported successfully."]
      /\ reports (fst out) = [(INFO, "Mesh imported successfully.")]
      /\ snd out = FINISHED
  end.
Proof.
  cbv zeta. unfold execute.
  pose proof (try_body_reports pyfloat mesh_ops csvfile) as R.
  destruct (try_body pyfloat mesh_ops csvfile) as [tr [e|u]]; cbn [fst snd] in *;
    rewrite reports_app, R; repeat split.
Qed.

(** C7. The vertex table is the decoded point sequence, entry for entry
    and in order: nothing is merged or skipped when vertices are inserted,
    whatever the points are, and the face loop leaves the table alone. *)
Theorem vertex_table_is_point_sequence (vertices : list point) :
  verts (insert_verts bmesh_new vertices) = vertices
  /\ (forall i : nat,
        nth_error (verts (insert_verts bmesh_new vertices)) i
        = nth_error vertices i)
  /\ List.length (verts (insert_verts bmesh_new vertices))
     = List.length vertices
  /\ match build vertices with
     | inr bm => verts bm = vertices
     | inl _ => True
     end.
Proof.
  assert (verts (insert_verts bmesh_new vertices) = vertices) as V
      by (now rewrite verts_insert_verts).
  repeat split.
  - exact V.
  - intros i. now rewrite V.
  - now rewrite V.
  - unfold build. 
    destruct (connect (len vertices) (range 0 (len vertices - 1) 3)
                (insert_verts bmesh_new vertices)) as [e|bm] eqn:E; [exact I|].
    apply connect_verts in E. now rewrite E.
Qed.

(** C8, as the code has it. On a successful import the listing is the
    header line "Vertices:" followed by one line per decoded point, in
    input order, each made from the template "({}, {}, {})" and the
    point's coordinates: it lists the vertices as read from the file, not
    the vertices of the mesh after the host's cleanup. *)
Theorem listing_enumerates_decoded_points
  (pyfloat : string -> string + float) (mesh_ops : bmesh -> result bmesh)
  (csvfile : result (list row)) (tr : list event) :
  execute pyfloat mesh_ops csvfile = (tr, FINISHED) ->
  exists reader vertices,
    csvfile = inr reader
    /\ decode pyfloat reader = inr vertices
    /\ listing tr = Literal listing_header :: map vertex_line vertices.
Proof.
  unfold execute. rewrite try_body_cases.
  destruct csvfile as [e|reader]; [discriminate|].
  destruct (decode pyfloat reader) as [e|vertices] eqn:D; [discriminate|].
  destruct (build vertices) as [e|bm]; [discriminate|].
  destruct (mesh_ops bm) as [e|final]; [discriminate|].
  intros [= <-]. exists reader, vertices.
  split; [reflexivity|]. split; [exact D|].
  apply (listing_finished_trace bm final vertices).
Qed.

(** C10. Among rows whose four position fields read as floats, exactly
    those with a zero w raise; a row with w below zero decodes without
    error to (x/w, y/w, z/w), each coordinate being the opposite of the
    quotient by |w|. *)
Theorem negative_w_is_decoded
  (pyfloat : string -> string + float) (r : row) (x y z w : float) :
  field_parses pyfloat r 2 x ->
  field_parses pyfloat r 3 y ->
  field_parses pyfloat r 4 z ->
  field_parses pyfloat r 5 w ->
  ((exists e, decode_row pyfloat r = inl e) <-> PrimFloat.eqb w 0 = true)
  /\ (PrimFloat.ltb w 0 = true ->
      decode_row pyfloat r = inr (x / w, y / w, z / w)%float
      /\ (x / w = - (x / abs w))%float
      /\ (y / w = - (y / abs w))%float
      /\ (z / w = - (z / abs w))%float).
Proof.
  intros Hx Hy Hz Hw.
  apply field_parses_field in Hx, Hy, Hz, Hw.
  assert (position pyfloat r = Some (x, y, z, w)) as P
      by (unfold position; now rewrite Hx, Hy, Hz, Hw).
  rewrite (decode_row_position _ _ _ _ _ _ P).
  split.
  - destruct (PrimFloat.eqb w 0); split; eauto; try discriminate.
    intros [e He]. discriminate.
  - intros Hneg. destruct (ltb_zero_sign _ Hneg) as [_ ->].
    auto using div_negative_divisor.
Qed.

(** ** The claims on sample files *)

(** The row 2, 4, 6, 2 decodes to (1.0, 2.0, 3.0). *)
Lemma decode_row_perspective_divide_witness :
  PrimFloat.eqb 2 0 = false
  /\ decode_row float_literal (data_row "2" "4" "6" "2")
     = inr (1, 2, 3)%float.
Proof.
  split; [reflexivity|].
  apply (decode_row_perspective_divide float_literal
           (data_row "2" "4" "6" "2") 2 4 6 2).
  - exists "2". split; reflexivity.
  - exists "4". split; reflexivity.
  - exists "6". split; reflexivity.
  - exists "2". split; reflexivity.
  - reflexivity.
  - reflexivity.
Defined.

(** A zero w in the second data row cancels the import. *)
Lemma malformed_row_cancels_import_witness :
  first_malformed float_literal (tl zero_w_second) = Some 2%nat
  /\ exists i r e,
       2%nat = S i
       /\ nth_error (tl zero_w_second) i = Some r
       /\ decode_row float_literal r = inl e
       /\ row_level (exc_type e) = true
       /\ execute float_literal merging_host (ok zero_w_second)
          = ([Report ERROR (str e)], CANCELLED)
       /\ mesh_built (fst (execute float_literal merging_host (ok zero_w_second)))
          = false
       /\ object_created
            (fst (execute float_literal merging_host (ok zero_w_second)))
          = false.
Proof.
  split; [vm_compute; reflexivity|].
  apply (malformed_row_cancels_import float_literal merging_host
           header_row (tl zero_w_second) 2).
  vm_compute. reflexivity.
Defined.

(** C4, as stated, fails: a zero w in the first data row and a zero w in
    the second end the decode with the same exception, so nothing read
    from the exception can be the row's number. *)
Lemma no_error_names_the_row :
  ~ exists row_of : exception -> nat, error_names_row float_literal row_of.
Proof.
  intros [row_of H].
  destruct (H header_row (tl zero_w_first) 1%nat) as (e1 & D1 & R1);
    [vm_compute; reflexivity|].
  destruct (H header_row (tl zero_w_second) 2%nat) as (e2 & D2 & R2);
    [vm_compute; reflexivity|].
  vm_compute in D1, D2. injection D1 as <-. injection D2 as <-.
  rewrite R1 in R2. discriminate R2.
Qed.

(** The six-row file: six lines after the header. *)
Lemma listing_enumerates_decoded_points_witness :
  exists reader vertices,
    ok six_rows = inr reader
    /\ decode float_literal reader = inr vertices
    /\ listing (fst (execute float_literal merging_host (ok six_rows)))
       = Literal listing_header :: map vertex_line vertices.
Proof.
  apply (listing_enumerates_decoded_points float_literal merging_host
           (ok six_rows)).
  vm_compute. reflexivity.
Defined.

(** C8, as stated, fails: the six-row file imports successfully, the
    merge leaves four vertices, and the listing has six vertex lines. *)
Lemma listing_is_not_the_final_vertices :
  snd (execute float_literal merging_host (ok six_rows)) = FINISHED
  /\ option_map (fun m => List.length (verts m))
       (final_mesh (fst (execute float_literal merging_host (ok six_rows))))
     = Some 4%nat
  /\ List.length
       (listing (fst (execute float_literal merging_host (ok six_rows))))
     = 7%nat
  /\ ~ lists_final_vertices
         (fst (execute float_literal merging_host (ok six_rows))).
Proof.
  repeat split; try (vm_compute; reflexivity).
  unfold lists_final_vertices. vm_compute. intros H. discriminate H.
Qed.

(** The row 2, 4, 6, -2 decodes to (-1.0, -2.0, -3.0). *)
Lemma negative_w_is_decoded_witness :
  PrimFloat.ltb (-2) 0 = true
  /\ decode_row float_literal (data_row "2" "4" "6" "-2")
     = inr (-1, -2, -3)%float.
Proof.
  split; [reflexivity|].
  apply (negative_w_is_decoded float_literal
           (data_row "2" "4" "6" "-2") 2 4 6 (-2)).
  - exists "2". split; reflexivity.
  - exists "4". split; reflexivity.
  - exists "6". split; reflexivity.
  - exists "-2". split; reflexivity.
  - reflexivity.
Defined.

(** * Further properties of the operator *)

(** ** The row decoder, lines 67-72 *)

Section DecoderFacts.

Variable pyfloat : string -> string + float.

(** [float(row[headers[key]])] looks at one column only. *)
Lemma float_at_column (r : row) (key : string) (i : nat) :
  dict_getitem headers key = inr i ->
  float_at pyfloat r key
  = match nth_error r i with
    | Some s => float_of pyfloat s
    | None => inl (Exc IndexError "list index out of range")
    end.
Proof.
  intros K. unfold float_at. rewrite K. unfold rbind, getitem, ok, throw.
  destruct (nth_error r i); reflexivity.
Qed.

Lemma decode_row_same_fields (r r' : row) :
  same_position_fields r r' -> decode_row pyfloat r = decode_row pyfloat r'.
Proof.
  intros (H2 & H3 & H4 & H5). unfold decode_row, divided.
  rewrite !(float_at_column r "SV_Position.x" 2 eq_refl),
    !(float_at_column r "SV_Position.y" 3 eq_refl),
    !(float_at_column r "SV_Position.z" 4 eq_refl),
    !(float_at_column r "SV_Position.w" 5 eq_refl),
    !(float_at_column r' "SV_Position.x" 2 eq_refl),
    !(float_at_column r' "SV_Position.y" 3 eq_refl),
    !(float_at_column r' "SV_Position.z" 4 eq_refl),
    !(float_at_column r' "SV_Position.w" 5 eq_refl).
  now rewrite H2, H3, H4, H5.
Qed.

Lemma decode_rows_same_fields (rows rows' : list row) :
  Forall2 same_position_fields rows rows' ->
  forall vertices,
    decode_rows pyfloat rows vertices = decode_rows pyfloat rows' vertices.
Proof.
  induction 1 as [|r r' rows rows' Hr _ IH]; intros vertices; simpl.
  - reflexivity.
  - rewrite (decode_row_same_fields _ _ Hr).
    destruct (decode_row pyfloat r'); simpl; [reflexivity|apply IH].
Qed.

(** The loop, from any vertices so far: what it returns is those vertices
    followed by one point per row, each the decoding of its row. *)
Lemma decode_rows_pointwise (rows : list row) :
  forall vertices out,
    decode_rows pyfloat rows vertices = inr out ->
    exists pts,
      out = vertices ++ pts
      /\ Forall2 (fun r p => decode_row pyfloat r = inr p) rows pts.
Proof.
  induction rows as [|r rest IH]; intros vertices out; simpl.
  - intros [= <-]. exists []. split; [now rewrite app_nil_r|constructor].
  - unfold rbind. destruct (decode_row pyfloat r) as [e|p] eqn:D; [discriminate|].
    intros H. destruct (IH _ _ H) as (pts & -> & F).
    exists (p :: pts). split; [now rewrite <- app_assoc|].
    constructor; assumption.
Qed.

End DecoderFacts.

(** X1. The decode of a file with a header succeeds exactly when no data
    row is malformed (fewer than 6 fields, a position field that is not a
    float, or a zero w). *)
Theorem decode_succeeds_iff_no_malformed_row
  (pyfloat : string -> string + float) (header : row) (rows : list row) :
  (exists vertices, decode pyfloat (header :: rows) = inr vertices)
  <-> first_malformed pyfloat rows = None.
Proof.
  unfold decode. simpl. split.
  - intros [vertices H].
    destruct (first_malformed pyfloat rows) as [k|] eqn:E; [|reflexivity].
    destruct (decode_rows_first_malformed pyfloat rows [] k E)
      as (i & r & e & _ & _ & _ & _ & Hrun).
    rewrite Hrun in H. discriminate.
  - intros E.
    destruct (decode_rows_well_formed pyfloat rows [] E) as (pts & Hrun & _).
    exists pts. exact Hrun.
Qed.

(** X2. When the decode succeeds there is one point per data row, in row
    order: point [i] is the decoding of data row [i] (the row after the
    header being data row 0). *)
Theorem decoded_points_follow_rows
  (pyfloat : string -> string + float) (header : row) (rows : list row)
  (vertices : list point) :
  decode pyfloat (header :: rows) = inr vertices ->
  List.length vertices = List.length rows
  /\ Forall2 (fun r p => decode_row pyfloat r = inr p) rows vertices.
Proof.
  unfold decode. simpl. intros H.
  destruct (decode_rows_pointwise pyfloat rows [] vertices H) as (pts & -> & F).
  simpl. split; [|exact F].
  symmetry. eapply Forall2_length, F.
Qed.

(** X3. The operator reads columns 2 to 5 of the data rows and nothing
    else: two files whose data rows agree on those four columns give the
    same events and the same result, whatever their headers, their columns
    0 and 1 and their columns past 5 hold. *)
Theorem unread_fields_do_not_matter
  (pyfloat : string -> string + float) (mesh_ops : bmesh -> result bmesh)
  (header header' : row) (rows rows' : list row) :
  Forall2 same_position_fields rows rows' ->
  execute pyfloat mesh_ops (ok (header :: rows))
  = execute pyfloat mesh_ops (ok (header' :: rows')).
Proof.
  intros F. unfold execute. rewrite !try_body_cases.
  unfold ok, decode. simpl.
  now rewrite (decode_rows_same_fields pyfloat rows rows' F []).
Qed.

(** X4. The x field is read first: when [float] refuses column 2, the row
    raises that [ValueError], whatever the rest of the row is (also when
    the row is too short or w is zero). *)
Theorem unparseable_x_is_raised_first
  (pyfloat : string -> string + float) (r : row) (s msg : string) :
  nth_error r 2 = Some s ->
  pyfloat s = inl msg ->
  decode_row pyfloat r = inl (Exc ValueError msg).
Proof.
  intros H2 Hs. unfold decode_row, divided.
  rewrite (float_at_column pyfloat r "SV_Position.x" 2 eq_refl), H2.
  unfold float_of. rewrite Hs. reflexivity.
Qed.

(** X5. A zero w is raised before y and z are looked at: when x and w
    read as floats and w is zero (of either sign), the row raises
    [ZeroDivisionError], whatever columns 3 and 4 hold. *)
Theorem zero_w_is_raised_before_y_and_z
  (pyfloat : string -> string + float) (r : row) (x w : float) :
  field_parses pyfloat r 2 x ->
  field_parses pyfloat r 5 w ->
  PrimFloat.eqb w 0 = true ->
  decode_row pyfloat r = inl (Exc ZeroDivisionError "float division by zero").
Proof.
  intros Hx Hw Hz. apply field_parses_field in Hx, Hw.
  unfold decode_row.
  rewrite (divided_fields pyfloat r "SV_Position.x" 2 x w eq_refl Hx Hw).
  unfold truediv. rewrite Hz. reflexivity.
Qed.

(** X6. A short row raises "list index out of range": a row of at most
    two fields always, and a row of three to five fields when its x
    field reads as a float. *)
Theorem short_row_raises_index_error
  (pyfloat : string -> string + float) (r : row) :
  (List.length r <= 2)%nat
  \/ ((exists x, field_parses pyfloat r 2 x) /\ (List.length r <= 5)%nat) ->
  decode_row pyfloat r = inl (Exc IndexError "list index out of range").
Proof.
  unfold decode_row, divided.
  rewrite (float_at_column pyfloat r "SV_Position.x" 2 eq_refl),
    (float_at_column pyfloat r "SV_Position.w" 5 eq_refl).
  intros [H|[[x (s & Hs & Hp)] H]].
  - apply nth_error_None in H. rewrite H. reflexivity.
  - apply nth_error_None in H. rewrite Hs, H.
    unfold float_of. rewrite Hp. reflexivity.
Qed.

(** X7. A w that reads as NaN is not rejected: the zero test fails on
    it, and the row decodes to a point whose three coordinates are NaN. *)
Theorem nan_w_gives_nan_point
  (pyfloat : string -> string + float) (r : row) (x y z : float) :
  field_parses pyfloat r 2 x ->
  field_parses pyfloat r 3 y ->
  field_parses pyfloat r 4 z ->
  field_parses pyfloat r 5 nan ->
  decode_row pyfloat r = inr (nan, nan, nan).
Proof.
  intros Hx Hy Hz Hw. apply field_parses_field in Hx, Hy, Hz, Hw.
  assert (position pyfloat r = Some (x, y, z, nan)) as P
      by (unfold position; now rewrite Hx, Hy, Hz, Hw).
  rewrite (decode_row_position _ _ _ _ _ _ P).
  change (PrimFloat.eqb nan 0) with false. cbv iota.
  assert (forall a : float, (a / nan)%float = nan) as N.
  { intros a. apply Prim2SF_inj. rewrite div_spec.
    change (Prim2SF nan) with S754_nan.
    unfold SF64div, SFdiv. now destruct (Prim2SF a). }
  now rewrite !N.
Qed.

(** ** The builder, lines 75-84 *)

Lemma corners_triangles (c : nat) :
  forall a : nat,
    flat_map corners
      (map (fun j : nat => (3 * j, 3 * j + 1, 3 * j + 2)%nat) (seq a c))
    = seq (3 * a) (3 * c).
Proof.
  induction c as [|c IH]; intros a.
  - reflexivity.
  - replace (3 * S c)%nat with (S (S (S (3 * c)))) by lia.
    cbn [seq map flat_map corners app]. rewrite IH.
    replace (3 * S a)%nat with (S (S (S (3 * a)))) by lia.
    replace (3 * a + 1)%nat with (S (3 * a)) by lia.
    replace (3 * a + 2)%nat with (S (S (3 * a))) by lia.
    reflexivity.
Qed.

(** X8. The builder raises exactly when the number of vertices leaves a
    remainder of 2 modulo 3, and what it then raises is an [IndexError]. *)
Theorem build_raises_iff_two_trailing (vertices : list point) :
  match build vertices with
  | inl e => (List.length vertices mod 3 = 2)%nat /\ exc_type e = IndexError
  | inr _ => (List.length vertices mod 3 <> 2)%nat
  end.
Proof.
  rewrite build_cases.
  destruct (List.length vertices mod 3 =? 2)%nat eqn:E.
  - apply Nat.eqb_eq in E. split; [exact E|reflexivity].
  - now apply Nat.eqb_neq in E.
Qed.

(** X9. In a mesh the builder returns, the faces taken in order refer to
    the table positions 0, 1, 2, ..., 3q-1 in order, q being the number of
    whole triples: so every face has three distinct positions inside the
    table, no two faces share a vertex, and a single trailing vertex stays
    in the table outside every face. *)
Theorem built_faces_enumerate_whole_triples
  (vertices : list point) (bm : bmesh) :
  build vertices = inr bm ->
  verts bm = vertices
  /\ List.length (faces bm) = (List.length vertices / 3)%nat
  /\ flat_map corners (faces bm) = seq 0 (3 * (List.length vertices / 3))
  /\ Forall (fun f : face =>
               let '(a, b, c) := f in
               (b = a + 1 /\ c = a + 2 /\ c < List.length (verts bm))%nat)
       (faces bm).
Proof.
  rewrite build_cases.
  destruct (List.length vertices mod 3 =? 2)%nat; [discriminate|].
  intros H.
  assert (bm = BMesh vertices (triangles (List.length vertices / 3))) as ->
      by congruence.
  clear H. cbn [verts faces]. unfold triangles.
  assert (3 * (List.length vertices / 3) <= List.length vertices)%nat as Hq
      by div_lia.
  revert Hq. generalize (List.length vertices / 3)%nat as q. intros q Hq.
  repeat split.
  - now rewrite length_map, length_seq.
  - apply (corners_triangles q 0).
  - apply Forall_forall. intros [[a b] c] H.
    apply in_map_iff in H as (j & E & Hj).
    apply in_seq in Hj. injection E as <- <- <-. lia.
Qed.

(** X10. Every index of [corner_indices] passes the test of line 83: the
    [if] never skips a corner, so it protects no lookup. *)
Theorem corner_guard_always_passes (vertices : list point) :
  Forall (fun i : Z => (i + 1 <? len vertices) = true)
    (range 0 (len vertices - 1) 3).
Proof.
  unfold len. rewrite range_corners. apply Forall_forall. intros i H.
  apply in_map_iff in H as (k & <- & Hk). apply in_seq in Hk.
  apply Z.ltb_lt. div_lia.
Qed.

(** ** The operator, lines 51-145 *)

(** X11. A file of N well-formed data rows with N mod 3 equal to 0 or 1
    is imported whenever the host's mesh operators succeed: the mesh handed
    to the host has the N decoded points as vertices and the N/3 triangles
    (3k, 3k+1, 3k+2), and the events are, in order, the mesh, the object
    and its link, the operators, the material, the text with its N+1
    writes, and the INFO report. *)
Theorem well_formed_file_is_imported
  (pyfloat : string -> string + float) (mesh_ops : bmesh -> result bmesh)
  (header : row) (rows : list row) (vertices : list point) (final : bmesh) :
  first_malformed pyfloat rows = None ->
  (List.length rows mod 3 <> 2)%nat ->
  decode pyfloat (header :: rows) = inr vertices ->
  mesh_ops (BMesh vertices (triangles (List.length rows / 3))) = inr final ->
  List.length vertices = List.length rows
  /\ execute pyfloat mesh_ops (ok (header :: rows))
     = ([MeshNew "CSV_Mesh";
         ToMesh (BMesh vertices (triangles (List.length rows / 3)));
         ObjectNew; ObjectLink; MeshOps final; MaterialAppend; TextNew]
          ++ write_listing vertices
          ++ [Report INFO "Mesh imported successfully."], FINISHED)
  /\ List.length (write_listing vertices) = S (List.length rows).
Proof.
  intros Hwf Hmod Hdec Hops.
  destruct (well_formed_file_cases pyfloat header rows Hwf)
    as (pts & Hlen & Hdec' & Hbuild).
  rewrite Hdec in Hdec'. injection Hdec' as <-.
  apply Nat.eqb_neq in Hmod. rewrite Hmod in Hbuild.
  split; [exact Hlen|]. split.
  - unfold execute. rewrite try_body_cases. unfold ok.
    rewrite Hdec, Hbuild, Hops. now rewrite <- app_assoc.
  - unfold write_listing. cbn [List.length]. now rewrite length_map, Hlen.
Qed.

(** X12. A file of N well-formed data rows with N mod 3 equal to 2 is
    never imported: the lookup of the missing corner [bm.verts[N]] raises,
    the import is cancelled with that text, and the mesh datablock
    "CSV_Mesh" created before the build stays behind without an object. *)
Theorem two_trailing_rows_cancel_import
  (pyfloat : string -> string + float) (mesh_ops : bmesh -> result bmesh)
  (header : row) (rows : list row) :
  first_malformed pyfloat rows = None ->
  (List.length rows mod 3 = 2)%nat ->
  execute pyfloat mesh_ops (ok (header :: rows))
  = ([MeshNew "CSV_Mesh";
      Report ERROR
        (String.append "BMElemSeq[index]: index "
           (String.append (decimal (len rows)) " out of range"))],
     CANCELLED).
Proof.
  intros Hwf Hmod.
  destruct (well_formed_file_cases pyfloat header rows Hwf)
    as (pts & Hlen & Hdec & Hbuild).
  apply Nat.eqb_eq in Hmod. rewrite Hmod in Hbuild.
  unfold execute. rewrite try_body_cases. unfold ok.
  rewrite Hdec, Hbuild. reflexivity.
Qed.

(** X13. The import finishes exactly when the file opens, the decode and
    the build succeed and the host's mesh operators succeed on the built
    mesh; otherwise it is cancelled. *)
Theorem finished_iff_every_stage_succeeds
  (pyfloat : string -> string + float) (mesh_ops : bmesh -> result bmesh)
  (csvfile : result (list row)) :
  snd (execute pyfloat mesh_ops csvfile) = FINISHED
  <-> exists reader vertices bm final,
        csvfile = inr reader
        /\ decode pyfloat reader = inr vertices
        /\ build vertices = inr bm
        /\ mesh_ops bm = inr final.
Proof.
  unfold execute. rewrite try_body_cases. split.
  - destruct csvfile as [e|reader]; [discriminate|].
    destruct (decode pyfloat reader) as [e|vertices] eqn:Hdec; [discriminate|].
    destruct (build vertices) as [e|bm] eqn:Hbuild; [discriminate|].
    destruct (mesh_ops bm) as [e|final] eqn:Hops; [discriminate|].
    intros _. exists reader, vertices, bm, final. auto.
  - intros (reader & vertices & bm & final & -> & -> & -> & ->). reflexivity.
Qed.

(** X14. The mesh datablock is created exactly when the decode succeeds,
    also when the import is cancelled later by the build or by the host. *)
Theorem mesh_created_iff_decoded
  (pyfloat : string -> string + float) (mesh_ops : bmesh -> result bmesh)
  (csvfile : result (list row)) :
  mesh_built (fst (execute pyfloat mesh_ops csvfile)) = true
  <-> exists reader vertices,
        csvfile = inr reader /\ decode pyfloat reader = inr vertices.
Proof.
  unfold execute. rewrite try_body_cases. split.
  - destruct csvfile as [e|reader]; [discriminate|].
    destruct (decode pyfloat reader) as [e|vertices] eqn:Hdec; [discriminate|].
    intros _. exists reader, vertices. auto.
  - intros (reader & vertices & -> & ->).
    destruct (build vertices) as [e|bm]; [reflexivity|].
    destruct (mesh_ops bm) as [e|final]; reflexivity.
Qed.

(** X15. The scene object is created and linked exactly when the build
    succeeds: a failure of the host's mesh operators cancels the import
    with the object already in the scene. *)
Theorem object_created_iff_built
  (pyfloat : string -> string + float) (mesh_ops : bmesh -> result bmesh)
  (csvfile : result (list row)) :
  object_created (fst (execute pyfloat mesh_ops csvfile)) = true
  <-> exists reader vertices bm,
        csvfile = inr reader
        /\ decode pyfloat reader = inr vertices
        /\ build vertices = inr bm.
Proof.
  unfold execute. rewrite try_body_cases. split.
  - destruct csvfile as [e|reader]; [discriminate|].
    destruct (decode pyfloat reader) as [e|vertices] eqn:Hdec; [discriminate|].
    destruct (build vertices) as [e|bm] eqn:Hbuild; [discriminate|].
    intros _. exists reader, vertices, bm. auto.
  - intros (reader & vertices & bm & -> & -> & ->).
    destruct (mesh_ops bm) as [e|final]; reflexivity.
Qed.

(** X16. A cancelled import writes nothing to a text listing, and what it
    leaves in the host is one of three things: nothing, the mesh
    datablock alone, or the mesh and the linked object. *)
Theorem cancelled_import_leaves
  (pyfloat : string -> string + float) (mesh_ops : bmesh -> result bmesh)
  (csvfile : result (list row)) (tr : list event) :
  execute pyfloat mesh_ops csvfile = (tr, CANCELLED) ->
  listing tr = []
  /\ final_mesh tr = None
  /\ exists e,
       tr = [Report ERROR (str e)]
       \/ tr = [MeshNew "CSV_Mesh"; Report ERROR (str e)]
       \/ exists bm,
            tr = [MeshNew "CSV_Mesh"; ToMesh bm; ObjectNew; ObjectLink;
                  Report ERROR (str e)].
Proof.
  unfold execute. rewrite try_body_cases.
  destruct csvfile as [e|reader].
  { intros [= <-]. repeat split. exists e. auto. }
  destruct (decode pyfloat reader) as [e|vertices].
  { intros [= <-]. repeat split. exists e. auto. }
  destruct (build vertices) as [e|bm].
  { intros [= <-]. repeat split. exists e. auto. }
  destruct (mesh_ops bm) as [e|final]; [|discriminate].
  intros [= <-]. repeat split. exists e. right. right. now exists bm.
Qed.

(** ** The further properties on sample files *)

(** The six-row file decodes to its six points, row by row. *)
Lemma decoded_points_follow_rows_witness :
  decode float_literal six_rows = inr six_points
  /\ List.length six_points = List.length (tl six_rows)
  /\ Forall2 (fun r p => decode_row float_literal r = inr p)
       (tl six_rows) six_points.
Proof.
  split; [vm_compute; reflexivity|].
  apply (decoded_points_follow_rows float_literal header_row (tl six_rows)
           six_points).
  vm_compute. reflexivity.
Defined.

(** Another header, other first two columns and extra columns change
    nothing. *)
Lemma unread_fields_do_not_matter_witness :
  execute float_literal merging_host (ok six_rows)
  = execute float_literal merging_host (ok six_rows_annotated).
Proof.
  apply (unread_fields_do_not_matter float_literal merging_host
           header_row ["a"] (tl six_rows) (tl six_rows_annotated)).
  repeat constructor.
Defined.

(** A row of three fields whose x is not a number. *)
Lemma unparseable_x_is_raised_first_witness :
  decode_row float_literal ["a"; "b"; "x"]
  = inl (Exc ValueError "could not convert string to float: 'x'").
Proof.
  apply (unparseable_x_is_raised_first float_literal ["a"; "b"; "x"] "x");
    reflexivity.
Defined.

(** A negative zero w next to a y that is not a number. *)
Lemma zero_w_is_raised_before_y_and_z_witness :
  PrimFloat.eqb (-0) 0 = true
  /\ decode_row float_literal (data_row "1" "oops" "3" "-0.0")
     = inl (Exc ZeroDivisionError "float division by zero").
Proof.
  split; [reflexivity|].
  apply (zero_w_is_raised_before_y_and_z float_literal
           (data_row "1" "oops" "3" "-0.0") 1 (-0)).
  - exists "1". split; reflexivity.
  - exists "-0.0". split; reflexivity.
  - reflexivity.
Defined.

(** A row of four fields. *)
Lemma short_row_raises_index_error_witness :
  decode_row float_literal ["a"; "b"; "1"; "2"]
  = inl (Exc IndexError "list index out of range").
Proof.
  apply (short_row_raises_index_error float_literal ["a"; "b"; "1"; "2"]).
  right. split.
  - exists 1%float, "1". split; reflexivity.
  - simpl. lia.
Defined.

(** A row whose w is the text nan. *)
Lemma nan_w_gives_nan_point_witness :
  decode_row float_literal_or_nan (data_row "1" "2" "3" "nan")
  = inr (nan, nan, nan).
Proof.
  apply (nan_w_gives_nan_point float_literal_or_nan
           (data_row "1" "2" "3" "nan") 1 2 3).
  - exists "1". split; reflexivity.
  - exists "2". split; reflexivity.
  - exists "3". split; reflexivity.
  - exists "nan". split; reflexivity.
Defined.

(** Four vertices: one face over the first three, the fourth in no
    face. *)
Lemma built_faces_enumerate_whole_triples_witness :
  build four_points = inr (BMesh four_points [(0, 1, 2)%nat])
  /\ flat_map corners (faces (BMesh four_points [(0, 1, 2)%nat]))
     = seq 0 3.
Proof.
  split; [vm_compute; reflexivity|].
  apply (built_faces_enumerate_whole_triples four_points
           (BMesh four_points [(0, 1, 2)%nat])).
  vm_compute. reflexivity.
Defined.

(** The six-row file is imported. *)
Lemma well_formed_file_is_imported_witness :
  first_malformed float_literal (tl six_rows) = None
  /\ snd (execute float_literal merging_host (ok six_rows)) = FINISHED
  /\ List.length (write_listing six_points) = 7%nat.
Proof.
  split; [vm_compute; reflexivity|].
  destruct (well_formed_file_is_imported float_literal merging_host
              header_row (tl six_rows) six_points
              (merge_by_distance 0.001%float (BMesh six_points (triangles 2))))
    as (_ & H & L).
  - vm_compute. reflexivity.
  - simpl. discriminate.
  - vm_compute. reflexivity.
  - reflexivity.
  - split; [|exact L].
    change (ok (header_row :: tl six_rows)) with (ok six_rows) in H.
    rewrite H. reflexivity.
Defined.

(** The eight-row file is cancelled at [bm.verts[8]]. *)
Lemma two_trailing_rows_cancel_import_witness :
  first_malformed float_literal (tl eight_rows) = None
  /\ execute float_literal merging_host (ok eight_rows)
     = ([MeshNew "CSV_Mesh";
         Report ERROR "BMElemSeq[index]: index 8 out of range"], CANCELLED).
Proof.
  split; [vm_compute; reflexivity|].
  apply (two_trailing_rows_cancel_import float_literal merging_host
           header_row (tl eight_rows)).
  - vm_compute. reflexivity.
  - reflexivity.
Defined.

(** A zero w cancels the import and leaves nothing. *)
Lemma cancelled_import_leaves_witness :
  execute float_literal merging_host (ok zero_w_first)
  = ([Report ERROR "float division by zero"], CANCELLED)
  /\ listing [Report ERROR "float division by zero"] = []
  /\ final_mesh [Report ERROR "float division by zero"] = None
  /\ exists e,
       [Report ERROR "float division by zero"] = [Report ERROR (str e)]
       \/ [Report ERROR "float division by zero"]
          = [MeshNew "CSV_Mesh"; Report ERROR (str e)]
       \/ exists bm,
            [Report ERROR "float division by zero"]
            = [MeshNew "CSV_Mesh"; ToMesh bm; ObjectNew; ObjectLink;
               Report ERROR (str e)].
Proof.
  split; [vm_compute; reflexivity|].
  apply (cancelled_import_leaves float_literal merging_host (ok zero_w_first)).
  vm_compute. reflexivity.
Defined.

(** ** Rows after a failure *)

(** The row loop over two stretches of rows is the loop over the first,
    then over the second from where the first ended. *)
Lemma decode_rows_app
  (pyfloat : string -> string + float) (rows1 rows2 : list row) :
  forall vertices,
    decode_rows pyfloat (rows1 ++ rows2) vertices
    = (out <- decode_rows pyfloat rows1 vertices ;;
       decode_rows pyfloat rows2 out)%result.
Proof.
  induction rows1 as [|r rest IH]; intros vertices; simpl; [reflexivity|].
  unfold rbind at 1 3.
  destruct (decode_row pyfloat r) as [e|p]; [reflexivity|apply IH].
Qed.

(** X17. The rows after a malformed row are never read: replacing them
    by any other rows changes neither the events nor the result. *)
Theorem rows_after_malformed_row_are_not_read
  (pyfloat : string -> string + float) (mesh_ops : bmesh -> result bmesh)
  (header bad : row) (before after after' : list row) :
  malformed pyfloat bad = true ->
  execute pyfloat mesh_ops (ok (header :: before ++ bad :: after))
  = execute pyfloat mesh_ops (ok (header :: before ++ bad :: after')).
Proof.
  intros Hbad. destruct (malformed_raises pyfloat bad Hbad) as (e & He & _).
  assert (forall rest,
             decode pyfloat (header :: before ++ bad :: rest)
             = match decode_rows pyfloat before [] with
               | inl e' => inl e'
               | inr _ => inl e
               end) as D.
  { intros rest. unfold decode, next, ok, rbind. cbn [snd].
    rewrite decode_rows_app. unfold rbind.
    destruct (decode_rows pyfloat before []) as [e'|out]; [reflexivity|].
    cbn [decode_rows]. unfold rbind. now rewrite He. }
  unfold execute. rewrite !try_body_cases. unfold ok. now rewrite !D.
Qed.

(** A zero w in the first data row: the second row is not read. *)
Lemma rows_after_malformed_row_are_not_read_witness :
  malformed float_literal (data_row "1" "2" "3" "0") = true
  /\ execute float_literal merging_host (ok zero_w_first)
     = execute float_literal merging_host
         (ok [header_row; data_row "1" "2" "3" "0"; ["not"; "read"]]).
Proof.
  split; [vm_compute; reflexivity|].
  apply (rows_after_malformed_row_are_not_read float_literal merging_host
           header_row (data_row "1" "2" "3" "0") [] [] [["not"; "read"]]).
  vm_compute. reflexivity.
Defined.
